(** * Salon voice assistant API server (src/api_server.py)

    A shallow embedding of the FastAPI handlers of [api_server.py]:
    [trigger_call], [voice_webhook], [voice_process], [get_bookings],
    [create_booking], [health_check] and [test_ai].

    Calls into collaborators (the Vonage SDK, the [AgenticSalonAI] object
    of [voice_agent]) are effects of a small state/error monad: the state
    holds the AI object's state and the trace of outward calls the handler
    makes, the error channel holds the Python exception being raised. *)

From Stdlib Require Import String Ascii List ZArith Bool Decimal Lia.
Import ListNotations.
Open Scope string_scope.
Open Scope char_scope.
Open Scope string_scope.

(** ** Python string operations used by the handlers *)

Module PyStr.

(** [s.replace(old, new)] for a one-character [old], the only form the
    handlers use: every occurrence of [old] is replaced by [new]. *)
Fixpoint replace (old : ascii) (new s : string) : string :=
  match s with
  | EmptyString => EmptyString
  | String c r =>
      if Ascii.eqb c old then new ++ replace old new r
      else String c (replace old new r)
  end.

(** [s.lstrip(chars)]: drop the longest prefix made of characters in
    [chars]. *)
Fixpoint lstrip (chars : list ascii) (s : string) : string :=
  match s with
  | EmptyString => EmptyString
  | String c r => if existsb (Ascii.eqb c) chars then lstrip chars r else s
  end.

(** [s.startswith(p)]. *)
Definition startswith (s p : string) : bool := String.prefix p s.

(** Truth value of a [str]: non-empty. *)
Definition truthy (s : string) : bool := negb (String.eqb s "").

(** [str(n)] for a non-negative [int]. *)
Fixpoint uint_to_string (d : Decimal.uint) : string :=
  match d with
  | Decimal.Nil => ""
  | Decimal.D0 r => String "0" (uint_to_string r)
  | Decimal.D1 r => String "1" (uint_to_string r)
  | Decimal.D2 r => String "2" (uint_to_string r)
  | Decimal.D3 r => String "3" (uint_to_string r)
  | Decimal.D4 r => String "4" (uint_to_string r)
  | Decimal.D5 r => String "5" (uint_to_string r)
  | Decimal.D6 r => String "6" (uint_to_string r)
  | Decimal.D7 r => String "7" (uint_to_string r)
  | Decimal.D8 r => String "8" (uint_to_string r)
  | Decimal.D9 r => String "9" (uint_to_string r)
  end.

Definition int_str (n : nat) : string := uint_to_string (Nat.to_uint n).

End PyStr.

(** ** Exceptions, JSON payloads, replies *)

(** The exceptions a handler can meet.  Starlette's [HTTPException]
    carries a status code and a detail; every other exception is kept
    with its class name and message.  All of them derive from
    [Exception], so [except Exception] catches each of them. *)
Inductive exn :=
| HTTPException (status_code : nat) (detail : string)
| PyException (cls : string) (msg : string).

(** [str(e)]: Starlette defines [HTTPException.__str__] as
    [f"{self.status_code}: {self.detail}"]; other exceptions print
    their message. *)
Definition exn_str (e : exn) : string :=
  match e with
  | HTTPException c d => PyStr.int_str c ++ ": " ++ d
  | PyException _ m => m
  end.

(** JSON values of the handlers' dict payloads. *)
#[local] Set Warnings "-register-all".
Inductive json :=
| JStr (s : string)
| JBool (b : bool)
| JNull
| JList (l : list json).

(** What a handler returns: a dict serialised as JSON, or an explicit
    [Response(content=..., media_type=...)]. *)
Inductive reply :=
| RJson (payload : list (string * json))
| RResponse (content : string) (media_type : string).

Inductive result (A : Type) :=
| Ok (a : A)
| Err (e : exn).
Arguments Ok {A} a.
Arguments Err {A} e.

(** ** Configuration of the module *)

(** The module-level constants: whether [import vonage] succeeded, the
    Vonage settings read from the environment or [config], whether the
    SDK constructor [vonage.Client(key=..., secret=...)] succeeds, the
    [WEBHOOK_URL] and [voice_agent.TWILIO_AVAILABLE]. *)
Record Config := {
  VONAGE_AVAILABLE : bool;
  VONAGE_API_KEY : string;
  VONAGE_API_SECRET : string;
  VONAGE_PHONE_NUMBER : string;
  VONAGE_ANSWER_URL : string;
  vonage_client_ok : bool;
  WEBHOOK_URL : string;
  TWILIO_AVAILABLE : bool
}.

(** [get_vonage_client()]: [None] stands for Python's [None], [Some tt]
    for a constructed client. *)
Definition get_vonage_client (cfg : Config) : option unit :=
  if negb (VONAGE_AVAILABLE cfg) then None
  else if negb (PyStr.truthy (VONAGE_API_KEY cfg) && PyStr.truthy (VONAGE_API_SECRET cfg))
  then None
  else if vonage_client_ok cfg then Some tt
  else None.

(** ** Outward calls *)

(** The argument dict of [vonage_client.voice.create_call]. *)
Record VonageCall := {
  vc_to : string;
  vc_from : string;
  vc_answer_url : list string
}.

(** What [create_call] returns: a dict (with or without ['uuid']) or
    some other object. *)
Inductive vonage_response :=
| VDict (uuid : option string)
| VOther.

(** The calls a handler makes into its collaborators, in order. *)
Inductive event :=
| EvVonageCreateCall (req : VonageCall)
| EvTriggerVoiceCall (phone : string) (webhook_url : string)
| EvProcessVoiceCall (speech : string)
| EvProcessUserInput (query : string)
| EvGenerateTwiml (message : string).

(** The [AgenticSalonAI] object [salon_ai] (module [voice_agent]), over
    its internal state [S]: each method may return or raise and may
    update the state. *)
Record Agent (S : Type) := {
  trigger_voice_call : S -> string -> string -> result bool * S;
  process_voice_call : S -> string -> result string * S;
  process_user_input : S -> string -> result string * S
}.
Arguments trigger_voice_call {S} a _ _ _.
Arguments process_voice_call {S} a _ _.
Arguments process_user_input {S} a _ _.

Record St (S : Type) := mkSt { ai : S; trace : list event }.
Arguments mkSt {S} ai trace.
Arguments ai {S} s.
Arguments trace {S} s.

(** ** The handler monad: state and Python exceptions *)

Definition M (S A : Type) := St S -> result A * St S.

Definition ret {S A} (a : A) : M S A := fun st => (Ok a, st).

Definition bind {S A B} (m : M S A) (k : A -> M S B) : M S B :=
  fun st => match m st with
            | (Ok a, st') => k a st'
            | (Err e, st') => (Err e, st')
            end.

Definition raise {S A} (e : exn) : M S A := fun st => (Err e, st).

(** [try: m  except Exception as e: h(e)]. *)
Definition try_except {S A} (m : M S A) (h : exn -> M S A) : M S A :=
  fun st => match m st with
            | (Ok a, st') => (Ok a, st')
            | (Err e, st') => h e st'
            end.

Definition emit {S} (ev : event) : M S unit :=
  fun st => (Ok tt, mkSt (ai st) (trace st ++ [ev])).

(** Run an external call that does not touch the AI state. *)
Definition lift_result {S A} (r : result A) : M S A := fun st => (r, st).

Notation "x <- m1 ;; m2" := (bind m1 (fun x => m2))
  (at level 61, m1 at next level, right associativity).
Notation "m1 ;;; m2" := (bind m1 (fun _ => m2))
  (at level 61, right associativity).

(** ** Calls into [salon_ai] *)

Section AgentCalls.
Context {S : Type} (salon_ai : Agent S).

(** Run a method of [salon_ai] on the current AI state. *)
Definition run_ai {A} (f : S -> result A * S) : M S A :=
  fun st => let (r, s') := f (ai st) in (r, mkSt s' (trace st)).

Definition call_trigger_voice_call (phone webhook_url : string) : M S bool :=
  emit (EvTriggerVoiceCall phone webhook_url) ;;;
  run_ai (fun s => trigger_voice_call salon_ai s phone webhook_url).

Definition call_process_voice_call (speech : string) : M S string :=
  emit (EvProcessVoiceCall speech) ;;;
  run_ai (fun s => process_voice_call salon_ai s speech).

Definition call_process_user_input (query : string) : M S string :=
  emit (EvProcessUserInput query) ;;;
  run_ai (fun s => process_user_input salon_ai s query).

End AgentCalls.

(** Modelled from the spec: [salon_ai.twilio_handler.generate_twiml_response]
    (module [voice_agent], not in src/).  The spec describes it as wrapping
    a textual reply into a provider call-control markup document that
    tells the platform to speak and gather the next input. *)
Definition generate_twiml_response (message : string) : string :=
  "<?xml version='1.0' encoding='UTF-8'?><Response>"
  ++ "<Gather input='speech' action='/voice/webhook' method='POST'><Say>"
  ++ message ++ "</Say></Gather></Response>".

Definition call_generate_twiml_response {S} (message : string) : M S string :=
  emit (EvGenerateTwiml message) ;;; ret (generate_twiml_response message).

(** ** POST /trigger-call *)

(** [request.get(k)] on a [Dict[str, str]] (keys are unique). *)
Fixpoint dict_get (k : string) (d : list (string * string)) : option string :=
  match d with
  | [] => None
  | (k', v) :: d' => if String.eqb k' k then Some v else dict_get k d'
  end.

(** Line 234: drop spaces, dashes and parentheses. *)
Definition clean_phone (phone : string) : string :=
  PyStr.replace ")"%char ""
    (PyStr.replace "("%char ""
      (PyStr.replace "-"%char ""
        (PyStr.replace " "%char "" phone))).

(** Lines 234-236. *)
Definition normalize_phone (phone : string) : string :=
  let phone := clean_phone phone in
  if negb (PyStr.startswith phone "+")
  then "+91" ++ PyStr.lstrip ["0"%char] phone
  else phone.

(** [vonage_client and VONAGE_PHONE_NUMBER and VONAGE_ANSWER_URL]. *)
Definition vonage_ready (cfg : Config) : bool :=
  match get_vonage_client cfg with
  | Some _ => PyStr.truthy (VONAGE_PHONE_NUMBER cfg) && PyStr.truthy (VONAGE_ANSWER_URL cfg)
  | None => false
  end.

Definition vonage_request (cfg : Config) (phone : string) : VonageCall :=
  {| vc_to := phone;
     vc_from := VONAGE_PHONE_NUMBER cfg;
     vc_answer_url := [VONAGE_ANSWER_URL cfg] |}.

Definition phone_required : exn := HTTPException 400 "Phone number is required".

Definition vonage_reply (phone : string) (response : vonage_response) : reply :=
  let call_id := match response with
                 | VDict (Some u) => JStr u
                 | VDict None => JNull
                 | VOther => JNull
                 end in
  RJson [("success", JBool true); ("provider", JStr "vonage");
         ("message", JStr ("AI call initiated to " ++ phone)); ("call_id", call_id)].

Definition twilio_reply (phone : string) (success : bool) : reply :=
  if success
  then RJson [("success", JBool true); ("provider", JStr "twilio");
              ("message", JStr ("AI call initiated to " ++ phone))]
  else RJson [("success", JBool false);
              ("message", JStr "Failed to initiate call. Configure Vonage (VONAGE_API_KEY/SECRET/PHONE/ANSWER_URL) or Twilio (SID/TOKEN/PHONE/WEBHOOK_URL).")].

Section TriggerCall.
Context {S : Type} (cfg : Config)
  (create_call : VonageCall -> result vonage_response) (salon_ai : Agent S).

(** Lines 240-251: the Vonage attempt; [None] means "fall through". *)
Definition vonage_attempt (phone : string) : M S (option reply) :=
  if vonage_ready cfg then
    try_except
      (let req := vonage_request cfg phone in
       emit (EvVonageCreateCall req) ;;;
       response <- lift_result (create_call req) ;;
       ret (Some (vonage_reply phone response)))
      (fun _ => ret None)
  else ret None.

(** Lines 253-259: the Twilio fallback. *)
Definition twilio_fallback (phone : string) : M S reply :=
  let webhook_url := WEBHOOK_URL cfg ++ "/voice/webhook" in
  success <- call_trigger_voice_call salon_ai phone webhook_url ;;
  ret (twilio_reply phone success).

(** The body of the [try] of [trigger_call] (lines 229-259). *)
Definition trigger_call_body (request : list (string * string)) : M S reply :=
  match dict_get "phone" request with
  | Some phone =>
      if negb (PyStr.truthy phone) then raise phone_required
      else
        let phone := normalize_phone phone in
        attempt <- vonage_attempt phone ;;
        match attempt with
        | Some r => ret r
        | None => twilio_fallback phone
        end
  | None => raise phone_required
  end.

Definition trigger_call (request : list (string * string)) : M S reply :=
  try_except (trigger_call_body request)
    (fun e => raise (HTTPException 500 (exn_str e))).

End TriggerCall.

(** ** POST /voice/webhook and GET /voice/process *)

(** Parsed form data or query parameters, in order of appearance. *)
Definition form := list (string * string).

(** Starlette's [ImmutableMultiDict.get(k, d)]: the last value given for
    [k], or [d]. *)
Definition form_get (k d : string) (f : form) : string :=
  fold_left (fun acc kv => if String.eqb (fst kv) k then snd kv else acc) f d.

Definition form_get_opt (k : string) (f : form) : option string :=
  fold_left (fun acc kv => if String.eqb (fst kv) k then Some (snd kv) else acc) f None.

Definition webhook_greeting : string :=
  "Hello! Welcome to Goodness Glamour Salon. I'm your AI assistant. How can I help you today?".

Definition webhook_apology : string :=
  "I'm sorry, I'm having trouble. Please try again later.".

Definition process_greeting : string :=
  "Hello! Welcome to Goodness Glamour Salon. How can I help you today?".

Definition process_apology : string :=
  "I'm sorry, I'm having trouble. Please try again.".

Section Voice.
Context {S : Type} (salon_ai : Agent S).

(** The body of the [try] of [voice_webhook] (lines 269-283);
    [request_form] is the outcome of [await request.form()]. *)
Definition voice_webhook_body (request_form : result form) : M S reply :=
  form_data <- lift_result request_form ;;
  let call_sid := form_get_opt "CallSid" form_data in
  let speech_result := form_get "SpeechResult" "" form_data in
  twiml_response <-
    (if negb (PyStr.truthy speech_result)
     then call_generate_twiml_response webhook_greeting
     else call_process_voice_call salon_ai speech_result) ;;
  ret (RResponse twiml_response "application/xml").

Definition voice_webhook (request_form : result form) : M S reply :=
  try_except (voice_webhook_body request_form)
    (fun _ =>
       error_response <- call_generate_twiml_response webhook_apology ;;
       ret (RResponse error_response "application/xml")).

(** The body of the [try] of [voice_process] (lines 296-304). *)
Definition voice_process_body (query_params : form) : M S reply :=
  let speech_result := form_get "SpeechResult" "" query_params in
  if negb (PyStr.truthy speech_result)
  then (doc <- call_generate_twiml_response process_greeting ;;
        ret (RResponse doc "application/xml"))
  else (twiml_response <- call_process_voice_call salon_ai speech_result ;;
        ret (RResponse twiml_response "application/xml")).

Definition voice_process (query_params : form) : M S reply :=
  try_except (voice_process_body query_params)
    (fun _ =>
       error_response <- call_generate_twiml_response process_apology ;;
       ret (RResponse error_response "application/xml")).

(** ** /bookings, /health, /test-ai *)

Definition get_bookings_body : M S reply :=
  ret (RJson [("bookings", JList []);
              ("message", JStr "Bookings endpoint - implement database query here")]).

Definition get_bookings : M S reply :=
  try_except get_bookings_body (fun e => raise (HTTPException 500 (exn_str e))).

(** [booking_data_str] is [str(booking_data)], the text the f-string
    inserts. *)
Definition create_booking_body (booking_data_str : string) : M S reply :=
  response <- call_process_user_input salon_ai ("Book appointment: " ++ booking_data_str) ;;
  ret (RJson [("success", JBool true); ("message", JStr response)]).

Definition create_booking (booking_data_str : string) : M S reply :=
  try_except (create_booking_body booking_data_str)
    (fun e => raise (HTTPException 500 (exn_str e))).

Definition test_query : string := "What services do you offer?".

(** [now] is [datetime.now().isoformat()] at the time of the request. *)
Definition test_ai_body (now : string) : M S reply :=
  response <- call_process_user_input salon_ai test_query ;;
  ret (RJson [("query", JStr test_query); ("response", JStr response);
              ("timestamp", JStr now)]).

Definition test_ai (now : string) : M S reply :=
  try_except (test_ai_body now) (fun e => raise (HTTPException 500 (exn_str e))).

End Voice.

(** [health_check] has no [try] and calls nothing that fails. *)
Definition health_check (cfg : Config) (now : string) : reply :=
  RJson [("status", JStr "healthy"); ("timestamp", JStr now);
         ("twilio_available", JBool (TWILIO_AVAILABLE cfg));
         ("ai_system", JStr "operational")].

(** ** The salon AI as the spec describes it *)

Definition contains (needle hay : string) : bool :=
  match String.index 0 needle hay with Some _ => true | None => false end.

(** Modelled from the spec: the reply table of [AgenticSalonAI]
    (module [voice_agent], not in src/), "a flat mapping from detected
    keywords in a transcribed utterance to a canned textual reply" over
    the intents hours, pricing, booking and services; the canned texts
    follow the salon details shown on the home page. *)
Definition salon_reply (speech : string) : string :=
  if contains "hour" speech || contains "open" speech || contains "time" speech
  then "We are open Monday to Sunday, 9 AM to 8 PM."
  else if contains "price" speech || contains "cost" speech
  then "Haircuts are 500 to 1500 rupees, coloring 2000 to 5000 rupees and bridal packages 15000 to 30000 rupees."
  else if contains "book" speech || contains "appointment" speech
  then "I can book that for you. Which service, date and time would you like?"
  else if contains "service" speech
  then "We offer haircut and styling, hair coloring, hair spa, keratin treatment, kids haircut, party hairstyle and bridal hair and makeup."
  else "I can help with our services, prices, hours and bookings. What would you like to know?".

(** Modelled from the spec: [AgenticSalonAI] (module [voice_agent], not in
    src/) as a stateless responder: [process_voice_call] wraps the reply
    into a call-control document, [process_user_input] returns the reply
    text, [trigger_voice_call] passes the call to the Twilio SDK, whose
    outcome is [twilio_create]. *)
Definition salon_ai_model (S : Type) (twilio_create : string -> string -> result bool)
  : Agent S :=
  {| trigger_voice_call := fun s phone url => (twilio_create phone url, s);
     process_voice_call := fun s speech =>
       (Ok (generate_twiml_response (salon_reply speech)), s);
     process_user_input := fun s query => (Ok (salon_reply query), s) |}.

(** ** Reading aids for the statements *)

(** The phone numbers handed to a provider in a trace of calls. *)
Fixpoint called_numbers (evs : list event) : list string :=
  match evs with
  | [] => []
  | EvVonageCreateCall r :: t => vc_to r :: called_numbers t
  | EvTriggerVoiceCall p _ :: t => p :: called_numbers t
  | _ :: t => called_numbers t
  end.

(** Whether a trace asks [salon_ai] to process speech. *)
Definition is_process_voice_call (ev : event) : bool :=
  match ev with EvProcessVoiceCall _ => true | _ => false end.

(** The characters of [s] other than space, dash and parentheses. *)
Fixpoint strip_separators (s : string) : string :=
  match s with
  | EmptyString => EmptyString
  | String c r =>
      if existsb (Ascii.eqb c) [" "%char; "-"%char; "("%char; ")"%char]
      then strip_separators r
      else String c (strip_separators r)
  end.

(** A JSON payload without one of its keys. *)
Definition drop_key (k : string) (p : list (string * json)) : list (string * json) :=
  filter (fun kv => negb (String.eqb (fst kv) k)) p.

Definition reply_drop_key (k : string) (r : reply) : reply :=
  match r with
  | RJson p => RJson (drop_key k p)
  | RResponse c m => RResponse c m
  end.

(** ** Lemmas on phone normalisation *)

Lemma truthy_true (s : string) : PyStr.truthy s = true <-> s <> "".
Proof.
  unfold PyStr.truthy. rewrite negb_true_iff.
  split; intro H.
  - intro E; subst; discriminate.
  - destruct (String.eqb s "") eqn:E; [|reflexivity].
    apply String.eqb_eq in E; contradiction.
Qed.

Lemma clean_phone_strip (s : string) : clean_phone s = strip_separators s.
Proof.
  unfold clean_phone.
  induction s as [|c r IH]; [reflexivity|].
  destruct c as [[] [] [] [] [] [] [] []]; simpl; rewrite <- IH; reflexivity.
Qed.

Lemma normalize_phone_cases (p : string) :
  normalize_phone p =
  if String.prefix "+" (clean_phone p) then clean_phone p
  else "+91" ++ PyStr.lstrip ["0"%char] (clean_phone p).
Proof.
  unfold normalize_phone, PyStr.startswith.
  destruct (String.prefix "+" (clean_phone p)); reflexivity.
Qed.

Lemma normalize_phone_plus (p : string) :
  String.prefix "+" (normalize_phone p) = true.
Proof.
  rewrite normalize_phone_cases.
  destruct (String.prefix "+" (clean_phone p)) eqn:E; [exact E|reflexivity].
Qed.

(** ** Lemmas on [trigger_call] *)

Section TriggerCallFacts.
Context {S : Type} (cfg : Config)
  (create_call : VonageCall -> result vonage_response) (salon_ai : Agent S).

Let url := WEBHOOK_URL cfg ++ "/voice/webhook".

(** The Twilio path, from the state reached before it. *)
Definition twilio_outcome (phone : string) (st : St S) : result reply * St S :=
  let (r, s') := trigger_voice_call salon_ai (ai st) phone url in
  (match r with
   | Ok b => Ok (twilio_reply phone b)
   | Err e => Err (HTTPException 500 (exn_str e))
   end,
   mkSt s' (trace st ++ [EvTriggerVoiceCall phone url])).

Lemma trigger_call_vonage_ok req st p r :
  dict_get "phone" req = Some p -> p <> "" ->
  vonage_ready cfg = true ->
  create_call (vonage_request cfg (normalize_phone p)) = Ok r ->
  trigger_call cfg create_call salon_ai req st =
  (Ok (vonage_reply (normalize_phone p) r),
   mkSt (ai st) (trace st ++ [EvVonageCreateCall (vonage_request cfg (normalize_phone p))])).
Proof.
  intros Hp Hne Hr Hc. apply truthy_true in Hne.
  unfold trigger_call, trigger_call_body, try_except.
  rewrite Hp, Hne. simpl.
  unfold bind, vonage_attempt. rewrite Hr.
  unfold try_except, emit, lift_result, bind, ret. simpl. rewrite Hc. reflexivity.
Qed.

Lemma trigger_call_vonage_err req st p e :
  dict_get "phone" req = Some p -> p <> "" ->
  vonage_ready cfg = true ->
  create_call (vonage_request cfg (normalize_phone p)) = Err e ->
  trigger_call cfg create_call salon_ai req st =
  twilio_outcome (normalize_phone p)
    (mkSt (ai st) (trace st ++ [EvVonageCreateCall (vonage_request cfg (normalize_phone p))])).
Proof.
  intros Hp Hne Hr Hc. apply truthy_true in Hne.
  unfold trigger_call, trigger_call_body, try_except.
  rewrite Hp, Hne. simpl.
  unfold bind, vonage_attempt. rewrite Hr.
  unfold try_except, emit, lift_result, bind, ret. simpl. rewrite Hc.
  unfold twilio_fallback, twilio_outcome, call_trigger_voice_call, emit, run_ai, bind, ret.
  simpl. fold url.
  destruct (trigger_voice_call salon_ai (ai st) (normalize_phone p) url) as [[b|e'] s'];
    reflexivity.
Qed.

Lemma trigger_call_no_vonage req st p :
  dict_get "phone" req = Some p -> p <> "" ->
  vonage_ready cfg = false ->
  trigger_call cfg create_call salon_ai req st = twilio_outcome (normalize_phone p) st.
Proof.
  intros Hp Hne Hr. apply truthy_true in Hne.
  unfold trigger_call, trigger_call_body, try_except.
  rewrite Hp, Hne. simpl.
  unfold bind, vonage_attempt. rewrite Hr.
  unfold twilio_fallback, twilio_outcome, call_trigger_voice_call, emit, run_ai, bind, ret.
  simpl. fold url.
  destruct (trigger_voice_call salon_ai (ai st) (normalize_phone p) url) as [[b|e'] s'];
    destruct st; reflexivity.
Qed.

(** With a phone number, the handler calls Vonage, Vonage then Twilio, or
    Twilio, each time with the normalised number. *)
Lemma trigger_call_events req st p :
  dict_get "phone" req = Some p -> p <> "" ->
  exists evs,
    trace (snd (trigger_call cfg create_call salon_ai req st)) = (trace st ++ evs)%list /\
    (evs = [EvVonageCreateCall (vonage_request cfg (normalize_phone p))] \/
     evs = [EvVonageCreateCall (vonage_request cfg (normalize_phone p));
            EvTriggerVoiceCall (normalize_phone p) url] \/
     evs = [EvTriggerVoiceCall (normalize_phone p) url]).
Proof.
  intros Hp Hne.
  destruct (vonage_ready cfg) eqn:Hr.
  - destruct (create_call (vonage_request cfg (normalize_phone p))) as [r|e] eqn:Hc.
    + rewrite (trigger_call_vonage_ok req st p r Hp Hne Hr Hc).
      eexists; split; [reflexivity|]. left; reflexivity.
    + rewrite (trigger_call_vonage_err req st p e Hp Hne Hr Hc).
      unfold twilio_outcome.
      destruct (trigger_voice_call salon_ai _ _ _) as [r s']. simpl.
      eexists; split; [rewrite <- app_assoc; reflexivity|]. right; left; reflexivity.
  - rewrite (trigger_call_no_vonage req st p Hp Hne Hr).
    unfold twilio_outcome.
    destruct (trigger_voice_call salon_ai _ _ _) as [r s']. simpl.
    eexists; split; [reflexivity|]. right; right; reflexivity.
Qed.

End TriggerCallFacts.

(** ** Concrete inputs for the witnesses *)

Definition demo_cfg : Config :=
  {| VONAGE_AVAILABLE := true; VONAGE_API_KEY := "key"; VONAGE_API_SECRET := "secret";
     VONAGE_PHONE_NUMBER := "14155550100"; VONAGE_ANSWER_URL := "https://example.com/ncco";
     vonage_client_ok := true; WEBHOOK_URL := "https://salon.example.com";
     TWILIO_AVAILABLE := true |}.

Definition demo_agent : Agent unit := salon_ai_model unit (fun _ _ => Ok true).

Definition vonage_down : VonageCall -> result vonage_response :=
  fun _ => Err (PyException "HTTPError" "503 Service Unavailable").

Definition demo_st : St unit := mkSt tt [].

(** ** Claims on POST /trigger-call *)

(** C1: for a submitted phone number, every number handed to a provider
    (there is at least one) is the number with spaces, dashes and
    parentheses removed, prefixed with [+91] after its leading zeros are
    stripped when it does not begin with [+], and left as it is when it
    does. *)
Theorem trigger_call_default_prefix {S : Type} (cfg : Config)
  (create_call : VonageCall -> result vonage_response) (salon_ai : Agent S)
  (req : list (string * string)) (st : St S) (p : string) :
  dict_get "phone" req = Some p -> p <> "" ->
  exists evs,
    trace (snd (trigger_call cfg create_call salon_ai req st)) = (trace st ++ evs)%list /\
    called_numbers evs <> [] /\
    Forall (fun n => n = if String.prefix "+" (strip_separators p)
                         then strip_separators p
                         else "+91" ++ PyStr.lstrip ["0"%char] (strip_separators p))
      (called_numbers evs).
Proof.
  intros Hp Hne.
  destruct (trigger_call_events cfg create_call salon_ai req st p Hp Hne) as [evs [Ht Halt]].
  exists evs. split; [exact Ht|].
  rewrite <- clean_phone_strip, <- normalize_phone_cases.
  destruct Halt as [->|[->| ->]]; simpl; split; try discriminate; repeat constructor.
Qed.

Lemma trigger_call_default_prefix_witness :
  exists evs,
    trace (snd (trigger_call demo_cfg vonage_down demo_agent
                  [("phone", "(098) 765-43210")] demo_st)) = (trace demo_st ++ evs)%list /\
    called_numbers evs <> [] /\
    Forall (fun n => n = if String.prefix "+" (strip_separators "(098) 765-43210")
                         then strip_separators "(098) 765-43210"
                         else "+91" ++ PyStr.lstrip ["0"%char] (strip_separators "(098) 765-43210"))
      (called_numbers evs).
Proof.
  apply (trigger_call_default_prefix demo_cfg vonage_down demo_agent
           [("phone", "(098) 765-43210")] demo_st "(098) 765-43210");
    [reflexivity | discriminate].
Defined.

(** C2: when Vonage is configured and its [create_call] raises, the handler
    does not propagate that exception: it goes on to the Twilio call with
    the same number and the webhook URL, and its outcome is the Twilio
    outcome. *)
Theorem trigger_call_vonage_fallback {S : Type} (cfg : Config)
  (create_call : VonageCall -> result vonage_response) (salon_ai : Agent S)
  (req : list (string * string)) (st : St S) (p : string) (e : exn) :
  dict_get "phone" req = Some p -> p <> "" ->
  vonage_ready cfg = true ->
  create_call (vonage_request cfg (normalize_phone p)) = Err e ->
  trace (snd (trigger_call cfg create_call salon_ai req st)) =
    (trace st ++ [EvVonageCreateCall (vonage_request cfg (normalize_phone p));
                  EvTriggerVoiceCall (normalize_phone p) (WEBHOOK_URL cfg ++ "/voice/webhook")])%list /\
  fst (trigger_call cfg create_call salon_ai req st) =
    match fst (trigger_voice_call salon_ai (ai st) (normalize_phone p)
                 (WEBHOOK_URL cfg ++ "/voice/webhook")) with
    | Ok b => Ok (twilio_reply (normalize_phone p) b)
    | Err e' => Err (HTTPException 500 (exn_str e'))
    end.
Proof.
  intros Hp Hne Hr Hc.
  rewrite (trigger_call_vonage_err cfg create_call salon_ai req st p e Hp Hne Hr Hc).
  unfold twilio_outcome.
  destruct (trigger_voice_call salon_ai _ _ _) as [r s']. simpl.
  split; [rewrite <- app_assoc; reflexivity | destruct r; reflexivity].
Qed.

Lemma trigger_call_vonage_fallback_witness :
  trace (snd (trigger_call demo_cfg vonage_down demo_agent [("phone", "9876543210")] demo_st)) =
    (trace demo_st ++ [EvVonageCreateCall (vonage_request demo_cfg (normalize_phone "9876543210"));
                       EvTriggerVoiceCall (normalize_phone "9876543210")
                         (WEBHOOK_URL demo_cfg ++ "/voice/webhook")])%list /\
  fst (trigger_call demo_cfg vonage_down demo_agent [("phone", "9876543210")] demo_st) =
    match fst (trigger_voice_call demo_agent (ai demo_st) (normalize_phone "9876543210")
                 (WEBHOOK_URL demo_cfg ++ "/voice/webhook")) with
    | Ok b => Ok (twilio_reply (normalize_phone "9876543210") b)
    | Err e' => Err (HTTPException 500 (exn_str e'))
    end.
Proof.
  apply (trigger_call_vonage_fallback demo_cfg vonage_down demo_agent
           [("phone", "9876543210")] demo_st "9876543210"
           (PyException "HTTPError" "503 Service Unavailable"));
    [reflexivity | discriminate | reflexivity | reflexivity].
Defined.

(** C7: for a request with a phone number, the handler calls a provider
    with the normalised number and a callback URL: Vonage's [create_call]
    with the hosted answer URL, or [salon_ai.trigger_voice_call] with
    [WEBHOOK_URL + "/voice/webhook"]. *)
Theorem trigger_call_invokes_provider {S : Type} (cfg : Config)
  (create_call : VonageCall -> result vonage_response) (salon_ai : Agent S)
  (req : list (string * string)) (st : St S) (p : string) :
  dict_get "phone" req = Some p -> p <> "" ->
  exists evs,
    trace (snd (trigger_call cfg create_call salon_ai req st)) = (trace st ++ evs)%list /\
    (In (EvVonageCreateCall {| vc_to := normalize_phone p;
                               vc_from := VONAGE_PHONE_NUMBER cfg;
                               vc_answer_url := [VONAGE_ANSWER_URL cfg] |}) evs \/
     In (EvTriggerVoiceCall (normalize_phone p) (WEBHOOK_URL cfg ++ "/voice/webhook")) evs).
Proof.
  intros Hp Hne.
  destruct (trigger_call_events cfg create_call salon_ai req st p Hp Hne) as [evs [Ht Halt]].
  exists evs. split; [exact Ht|].
  destruct Halt as [->|[->| ->]]; simpl; auto.
Qed.

Lemma trigger_call_invokes_provider_witness :
  exists evs,
    trace (snd (trigger_call demo_cfg vonage_down demo_agent [("phone", "98765 43210")] demo_st)) =
      (trace demo_st ++ evs)%list /\
    (In (EvVonageCreateCall {| vc_to := normalize_phone "98765 43210";
                               vc_from := VONAGE_PHONE_NUMBER demo_cfg;
                               vc_answer_url := [VONAGE_ANSWER_URL demo_cfg] |}) evs \/
     In (EvTriggerVoiceCall (normalize_phone "98765 43210")
           (WEBHOOK_URL demo_cfg ++ "/voice/webhook")) evs).
Proof.
  apply (trigger_call_invokes_provider demo_cfg vonage_down demo_agent
           [("phone", "98765 43210")] demo_st "98765 43210");
    [reflexivity | discriminate].
Defined.

(** C9: [+91] is prepended to every cleaned number not beginning with [+],
    with no special case for numbers already beginning with [91]; so
    [919876543210] reaches the provider as [+91919876543210], and a
    normalised number always begins with [+]. *)
Theorem normalize_phone_always_prefixes :
  (forall p, normalize_phone p =
             if String.prefix "+" (clean_phone p) then clean_phone p
             else "+91" ++ PyStr.lstrip ["0"%char] (clean_phone p)) /\
  (forall p, String.prefix "+" (normalize_phone p) = true) /\
  normalize_phone "919876543210" = "+91919876543210" /\
  (forall (S : Type) (cfg : Config) (create_call : VonageCall -> result vonage_response)
          (salon_ai : Agent S) (st : St S),
     exists evs,
       trace (snd (trigger_call cfg create_call salon_ai [("phone", "919876543210")] st)) =
         (trace st ++ evs)%list /\
       called_numbers evs <> [] /\
       Forall (fun n => n = "+91919876543210") (called_numbers evs)).
Proof.
  split; [exact normalize_phone_cases|].
  split; [exact normalize_phone_plus|].
  split; [reflexivity|].
  intros S cfg create_call salon_ai st.
  assert (Hp : dict_get "phone" [("phone", "919876543210")] = Some "919876543210")
    by reflexivity.
  assert (Hne : "919876543210" <> "") by discriminate.
  destruct (trigger_call_events cfg create_call salon_ai _ st _ Hp Hne) as [evs [Ht Halt]].
  exists evs. split; [exact Ht|].
  destruct Halt as [->|[->| ->]]; simpl; split; try discriminate; repeat constructor.
Qed.

(** C10: without a [phone] field the 400 [HTTPException] raised in the
    [try] is caught by [except Exception] and re-raised with status 500;
    its detail is [str(e)], i.e. ["400: Phone number is required"], which
    carries the original detail text. *)
Theorem trigger_call_missing_phone_500 {S : Type} (cfg : Config)
  (create_call : VonageCall -> result vonage_response) (salon_ai : Agent S)
  (req : list (string * string)) (st : St S) :
  dict_get "phone" req = None ->
  fst (trigger_call cfg create_call salon_ai req st) =
    Err (HTTPException 500 ("400: " ++ "Phone number is required")).
Proof.
  intros Hp. unfold trigger_call, trigger_call_body, try_except.
  rewrite Hp. reflexivity.
Qed.

Lemma trigger_call_missing_phone_500_witness :
  fst (trigger_call demo_cfg vonage_down demo_agent [("name", "Asha")] demo_st) =
    Err (HTTPException 500 ("400: " ++ "Phone number is required")).
Proof.
  apply (trigger_call_missing_phone_500 demo_cfg vonage_down demo_agent
           [("name", "Asha")] demo_st).
  reflexivity.
Defined.

(** ** Lemmas on the voice endpoints *)

Definition reply_payload (r : reply) : list (string * json) :=
  match r with RJson p => p | RResponse _ _ => [] end.

Lemma voice_webhook_no_speech {S : Type} (salon_ai : Agent S) (f : form) (st : St S) :
  form_get "SpeechResult" "" f = "" ->
  voice_webhook salon_ai (Ok f) st =
  (Ok (RResponse (generate_twiml_response webhook_greeting) "application/xml"),
   mkSt (ai st) (trace st ++ [EvGenerateTwiml webhook_greeting])).
Proof.
  intros H.
  unfold voice_webhook, voice_webhook_body, try_except, bind, lift_result.
  rewrite H. reflexivity.
Qed.

Lemma voice_webhook_speech_ok {S : Type} (salon_ai : Agent S) (f : form) (st : St S)
  (sp doc : string) (s' : S) :
  form_get "SpeechResult" "" f = sp -> sp <> "" ->
  process_voice_call salon_ai (ai st) sp = (Ok doc, s') ->
  voice_webhook salon_ai (Ok f) st =
  (Ok (RResponse doc "application/xml"),
   mkSt s' (trace st ++ [EvProcessVoiceCall sp])).
Proof.
  intros H Hne Hp. apply truthy_true in Hne.
  unfold voice_webhook, voice_webhook_body, try_except, bind, lift_result.
  rewrite H, Hne. simpl.
  unfold call_process_voice_call, emit, run_ai, bind, ret. simpl.
  rewrite Hp. reflexivity.
Qed.

(** The webhook's answer depends on the form only through [SpeechResult]. *)
Lemma voice_webhook_speech_only {S : Type} (salon_ai : Agent S) (f1 f2 : form)
  (st1 st2 : St S) :
  form_get "SpeechResult" "" f1 = form_get "SpeechResult" "" f2 ->
  ai st1 = ai st2 ->
  fst (voice_webhook salon_ai (Ok f1) st1) = fst (voice_webhook salon_ai (Ok f2) st2).
Proof.
  intros H Hai.
  unfold voice_webhook, voice_webhook_body, try_except, bind, lift_result.
  rewrite H.
  destruct (PyStr.truthy (form_get "SpeechResult" "" f2)); simpl.
  - unfold call_process_voice_call, emit, run_ai, bind, ret; simpl. rewrite Hai.
    destruct (process_voice_call salon_ai (ai st2) _) as [[d|e] s']; reflexivity.
  - reflexivity.
Qed.

(** ** Claims on the voice endpoints *)

(** C3: a webhook request whose [SpeechResult] is absent or empty is
    answered with the call-control document of the fixed greeting, which
    contains the greeting text; the only call made is the markup
    generation, so speech processing is not invoked and the AI state is
    untouched. *)
Theorem voice_webhook_greeting {S : Type} (salon_ai : Agent S) (f : form) (st : St S) :
  form_get "SpeechResult" "" f = "" ->
  fst (voice_webhook salon_ai (Ok f) st) =
    Ok (RResponse (generate_twiml_response webhook_greeting) "application/xml") /\
  (exists pre post, generate_twiml_response webhook_greeting = pre ++ webhook_greeting ++ post) /\
  snd (voice_webhook salon_ai (Ok f) st) =
    mkSt (ai st) (trace st ++ [EvGenerateTwiml webhook_greeting]) /\
  existsb is_process_voice_call (trace (snd (voice_webhook salon_ai (Ok f) st))) =
    existsb is_process_voice_call (trace st).
Proof.
  intros H. rewrite (voice_webhook_no_speech salon_ai f st H). simpl.
  split; [reflexivity|].
  split.
  - exists ("<?xml version='1.0' encoding='UTF-8'?><Response>"
             ++ "<Gather input='speech' action='/voice/webhook' method='POST'><Say>"),
           "</Say></Gather></Response>".
    reflexivity.
  - split; [reflexivity|].
    rewrite existsb_app. simpl. rewrite orb_false_r. reflexivity.
Qed.

Lemma voice_webhook_greeting_witness :
  fst (voice_webhook demo_agent (Ok [("CallSid", "CA01"); ("From", "+919876543210")]) demo_st) =
    Ok (RResponse (generate_twiml_response webhook_greeting) "application/xml") /\
  (exists pre post, generate_twiml_response webhook_greeting = pre ++ webhook_greeting ++ post) /\
  snd (voice_webhook demo_agent (Ok [("CallSid", "CA01"); ("From", "+919876543210")]) demo_st) =
    mkSt (ai demo_st) (trace demo_st ++ [EvGenerateTwiml webhook_greeting]) /\
  existsb is_process_voice_call
    (trace (snd (voice_webhook demo_agent (Ok [("CallSid", "CA01"); ("From", "+919876543210")]) demo_st))) =
    existsb is_process_voice_call (trace demo_st).
Proof.
  apply (voice_webhook_greeting demo_agent [("CallSid", "CA01"); ("From", "+919876543210")] demo_st).
  reflexivity.
Defined.

(** C4: a webhook request with a non-empty [SpeechResult] is answered,
    with media type [application/xml], by the document [salon_ai] produces
    for that speech, and that document is not empty. *)
Theorem voice_webhook_speech_document {S : Type}
  (twilio_create : string -> string -> result bool) (f : form) (st : St S) (sp : string) :
  form_get "SpeechResult" "" f = sp -> sp <> "" ->
  exists doc,
    process_voice_call (salon_ai_model S twilio_create) (ai st) sp = (Ok doc, ai st) /\
    fst (voice_webhook (salon_ai_model S twilio_create) (Ok f) st) =
      Ok (RResponse doc "application/xml") /\
    doc <> "".
Proof.
  intros H Hne.
  exists (generate_twiml_response (salon_reply sp)).
  split; [reflexivity|].
  rewrite (voice_webhook_speech_ok (salon_ai_model S twilio_create) f st sp
             (generate_twiml_response (salon_reply sp)) (ai st) H Hne eq_refl).
  split; [reflexivity|].
  unfold generate_twiml_response; simpl; discriminate.
Qed.

Lemma voice_webhook_speech_document_witness :
  exists doc,
    process_voice_call (salon_ai_model unit (fun _ _ => Ok true)) (ai demo_st)
      "how much is a haircut" = (Ok doc, ai demo_st) /\
    fst (voice_webhook (salon_ai_model unit (fun _ _ => Ok true))
           (Ok [("CallSid", "CA02"); ("SpeechResult", "how much is a haircut")]) demo_st) =
      Ok (RResponse doc "application/xml") /\
    doc <> "".
Proof.
  apply (voice_webhook_speech_document (fun _ _ => Ok true)
           [("CallSid", "CA02"); ("SpeechResult", "how much is a haircut")] demo_st
           "how much is a haircut");
    [reflexivity | discriminate].
Defined.

(** C6: with the stateless salon AI of the spec, two webhook requests with
    the same [SpeechResult] get the same answer, whatever their [CallSid]
    and other fields, and whatever state earlier requests left. *)
Theorem voice_webhook_stateless {S : Type}
  (twilio_create : string -> string -> result bool) (f1 f2 : form) (st1 st2 : St S) :
  form_get "SpeechResult" "" f1 = form_get "SpeechResult" "" f2 ->
  fst (voice_webhook (salon_ai_model S twilio_create) (Ok f1) st1) =
  fst (voice_webhook (salon_ai_model S twilio_create) (Ok f2) st2).
Proof.
  intros H.
  destruct (String.eqb (form_get "SpeechResult" "" f2) "") eqn:E.
  - apply String.eqb_eq in E.
    rewrite (voice_webhook_no_speech _ f1 st1 (eq_trans H E)).
    rewrite (voice_webhook_no_speech _ f2 st2 E). reflexivity.
  - apply String.eqb_neq in E.
    rewrite (voice_webhook_speech_ok (salon_ai_model S twilio_create) f1 st1 _ _ (ai st1)
               H E eq_refl).
    rewrite (voice_webhook_speech_ok (salon_ai_model S twilio_create) f2 st2 _ _ (ai st2)
               eq_refl E eq_refl).
    reflexivity.
Qed.

Lemma voice_webhook_stateless_witness :
  fst (voice_webhook demo_agent
         (Ok [("CallSid", "CA03"); ("SpeechResult", "book a haircut")]) demo_st) =
  fst (voice_webhook demo_agent
         (Ok [("SpeechResult", "book a haircut"); ("CallSid", "CA04"); ("From", "+15550100")])
         (mkSt tt [EvProcessVoiceCall "what are your hours"])).
Proof.
  apply (voice_webhook_stateless (fun _ _ => Ok true)
           [("CallSid", "CA03"); ("SpeechResult", "book a haircut")]
           [("SpeechResult", "book a haircut"); ("CallSid", "CA04"); ("From", "+15550100")]
           demo_st (mkSt tt [EvProcessVoiceCall "what are your hours"])).
  reflexivity.
Defined.

(** C5: in each handler with a [try] ([trigger_call], [voice_webhook],
    [voice_process], [get_bookings], [create_booking], [test_ai]), an
    exception raised by the body is caught: the voice endpoints answer with
    the apology document, the others raise an [HTTPException] with status
    500; a body that returns is answered as it is. *)
Theorem handlers_catch_exceptions {S : Type} :
  (forall cfg create_call (salon_ai : Agent S) req (st : St S),
     fst (trigger_call cfg create_call salon_ai req st) =
     match fst (trigger_call_body cfg create_call salon_ai req st) with
     | Ok r => Ok r
     | Err e => Err (HTTPException 500 (exn_str e))
     end) /\
  (forall (salon_ai : Agent S) request_form (st : St S),
     fst (voice_webhook salon_ai request_form st) =
     match fst (voice_webhook_body salon_ai request_form st) with
     | Ok r => Ok r
     | Err _ => Ok (RResponse (generate_twiml_response webhook_apology) "application/xml")
     end) /\
  (forall (salon_ai : Agent S) query_params (st : St S),
     fst (voice_process salon_ai query_params st) =
     match fst (voice_process_body salon_ai query_params st) with
     | Ok r => Ok r
     | Err _ => Ok (RResponse (generate_twiml_response process_apology) "application/xml")
     end) /\
  (forall (st : St S),
     fst (get_bookings st) =
     match fst (get_bookings_body st) with
     | Ok r => Ok r
     | Err e => Err (HTTPException 500 (exn_str e))
     end) /\
  (forall (salon_ai : Agent S) booking_data_str (st : St S),
     fst (create_booking salon_ai booking_data_str st) =
     match fst (create_booking_body salon_ai booking_data_str st) with
     | Ok r => Ok r
     | Err e => Err (HTTPException 500 (exn_str e))
     end) /\
  (forall (salon_ai : Agent S) now (st : St S),
     fst (test_ai salon_ai now st) =
     match fst (test_ai_body salon_ai now st) with
     | Ok r => Ok r
     | Err e => Err (HTTPException 500 (exn_str e))
     end).
Proof.
  repeat split; intros;
    unfold trigger_call, voice_webhook, voice_process, get_bookings, create_booking,
      test_ai, try_except;
    match goal with
    | |- context [match ?b ?st with _ => _ end] =>
        destruct (b st) as [[r|e] st']; reflexivity
    end.
Qed.

(** ** Claims on /health and /test-ai *)

(** C8, counterexample: both payloads carry [datetime.now().isoformat()],
    so two invocations one second apart return different payloads. *)
Lemma health_test_payloads_differ :
  health_check demo_cfg "2026-10-17T09:00:00" <> health_check demo_cfg "2026-10-17T09:00:01" /\
  fst (test_ai demo_agent "2026-10-17T09:00:00" demo_st) <>
  fst (test_ai demo_agent "2026-10-17T09:00:01" demo_st).
Proof.
  split; intro H; inversion H.
Qed.

(** C8, as amended: apart from the [timestamp] field, which holds the time
    of the invocation, the health payload is the same at every invocation
    (status [healthy], the Twilio flag, ai_system [operational]); and with
    the stateless salon AI of the spec, the test payload is, apart from its
    [timestamp], the fixed query and the reply to it, whatever the time
    and the state left by earlier requests. *)
Theorem health_test_static_but_timestamp :
  (forall (cfg : Config) (now : string),
     reply_drop_key "timestamp" (health_check cfg now) =
       RJson [("status", JStr "healthy"); ("twilio_available", JBool (TWILIO_AVAILABLE cfg));
              ("ai_system", JStr "operational")] /\
     In ("timestamp", JStr now) (reply_payload (health_check cfg now))) /\
  (forall (S : Type) (twilio_create : string -> string -> result bool) (st : St S)
          (now : string),
     exists r,
       fst (test_ai (salon_ai_model S twilio_create) now st) = Ok r /\
       reply_drop_key "timestamp" r =
         RJson [("query", JStr "What services do you offer?");
                ("response", JStr (salon_reply "What services do you offer?"))] /\
       In ("timestamp", JStr now) (reply_payload r)).
Proof.
  split.
  - intros cfg now. split; [reflexivity|]. simpl. auto.
  - intros S twilio_create st now. eexists. split; [reflexivity|].
    split; [reflexivity|]. simpl. auto.
Qed.

(** * Further properties of the handlers *)

(** Lines 31-35: a Vonage setting is the environment variable when it is
    set, else (when [config] was imported) the attribute of [config],
    else the empty string. *)
Definition vonage_setting (config_imported : bool) (env : option string)
  (config_attr : option string) : string :=
  if config_imported
  then match env with
       | Some v => v
       | None => match config_attr with Some v => v | None => "" end
       end
  else match env with Some v => v | None => "" end.

Definition is_vonage_call (ev : event) : bool :=
  match ev with EvVonageCreateCall _ => true | _ => false end.

Definition is_twilio_call (ev : event) : bool :=
  match ev with EvTriggerVoiceCall _ _ => true | _ => false end.

Section TriggerCallMore.
Context {S : Type} (cfg : Config)
  (create_call : VonageCall -> result vonage_response) (salon_ai : Agent S).

Lemma trigger_call_no_phone req (st : St S) :
  dict_get "phone" req = None \/ dict_get "phone" req = Some "" ->
  trigger_call cfg create_call salon_ai req st =
  (Err (HTTPException 500 (exn_str phone_required)), st).
Proof.
  intros [H|H]; unfold trigger_call, trigger_call_body, try_except; rewrite H; reflexivity.
Qed.

Lemma vonage_ready_true_iff :
  vonage_ready cfg = true <->
  VONAGE_AVAILABLE cfg = true /\ VONAGE_API_KEY cfg <> "" /\ VONAGE_API_SECRET cfg <> "" /\
  vonage_client_ok cfg = true /\ VONAGE_PHONE_NUMBER cfg <> "" /\ VONAGE_ANSWER_URL cfg <> "".
Proof.
  unfold vonage_ready, get_vonage_client.
  rewrite <- !truthy_true.
  destruct (VONAGE_AVAILABLE cfg), (PyStr.truthy (VONAGE_API_KEY cfg)),
    (PyStr.truthy (VONAGE_API_SECRET cfg)), (vonage_client_ok cfg),
    (PyStr.truthy (VONAGE_PHONE_NUMBER cfg)), (PyStr.truthy (VONAGE_ANSWER_URL cfg));
    simpl; intuition congruence.
Qed.

(** Whatever the request, the calls [trigger_call] makes are among: one
    Vonage call, one Vonage call then one Twilio call, one Twilio call, or
    none. *)
Lemma trigger_call_events_all req (st : St S) :
  exists evs,
    trace (snd (trigger_call cfg create_call salon_ai req st)) = (trace st ++ evs)%list /\
    (evs = [] \/
     (vonage_ready cfg = true /\ exists r, evs = [EvVonageCreateCall r]) \/
     (vonage_ready cfg = true /\ exists r p u, evs = [EvVonageCreateCall r; EvTriggerVoiceCall p u]) \/
     (exists p u, evs = [EvTriggerVoiceCall p u])).
Proof.
  destruct (dict_get "phone" req) as [p|] eqn:Hp.
  - destruct (String.eqb p "") eqn:E.
    + apply String.eqb_eq in E; subst p.
      rewrite (trigger_call_no_phone req st (or_intror Hp)).
      exists []. rewrite app_nil_r. auto.
    + apply String.eqb_neq in E.
      destruct (vonage_ready cfg) eqn:Hr.
      * destruct (create_call (vonage_request cfg (normalize_phone p))) as [r|e] eqn:Hc.
        -- rewrite (trigger_call_vonage_ok cfg create_call salon_ai req st p r Hp E Hr Hc).
           eexists; split; [reflexivity|]. right; left. split; [reflexivity|]. eauto.
        -- rewrite (trigger_call_vonage_err cfg create_call salon_ai req st p e Hp E Hr Hc).
           unfold twilio_outcome.
           destruct (trigger_voice_call salon_ai _ _ _) as [r s']. simpl.
           eexists; split; [rewrite <- app_assoc; reflexivity|].
           right; right; left. split; [reflexivity|]. do 3 eexists; reflexivity.
      * rewrite (trigger_call_no_vonage cfg create_call salon_ai req st p Hp E Hr).
        unfold twilio_outcome.
        destruct (trigger_voice_call salon_ai _ _ _) as [r s']. simpl.
        eexists; split; [reflexivity|]. right; right; right; eauto.
  - rewrite (trigger_call_no_phone req st (or_introl Hp)).
    exists []. rewrite app_nil_r. auto.
Qed.

End TriggerCallMore.

(** ** Lemmas on phone strings *)

Definition is_separator (c : ascii) : bool :=
  existsb (Ascii.eqb c) [" "%char; "-"%char; "("%char; ")"%char].

Fixpoint has_no_seps (s : string) : bool :=
  match s with
  | EmptyString => true
  | String c r => negb (is_separator c) && has_no_seps r
  end.

Lemma strip_separators_cons c r :
  strip_separators (String c r) =
  if is_separator c then strip_separators r else String c (strip_separators r).
Proof. reflexivity. Qed.

Lemma strip_separators_no_seps s : has_no_seps (strip_separators s) = true.
Proof.
  induction s as [|c r IH]; [reflexivity|]. rewrite strip_separators_cons.
  destruct (is_separator c) eqn:E; [exact IH|].
  cbn [has_no_seps]. rewrite E, IH. reflexivity.
Qed.

Lemma no_seps_strip_id s : has_no_seps s = true -> strip_separators s = s.
Proof.
  induction s as [|c r IH]; [reflexivity|]. rewrite strip_separators_cons.
  cbn [has_no_seps]. intro H.
  apply andb_true_iff in H as [H1 H2]. apply negb_true_iff in H1.
  rewrite H1, (IH H2). reflexivity.
Qed.

Lemma no_seps_lstrip cs s : has_no_seps s = true -> has_no_seps (PyStr.lstrip cs s) = true.
Proof.
  induction s as [|c r IH]; [reflexivity|]. simpl. intro H.
  destruct (existsb (Ascii.eqb c) cs); [|exact H].
  apply andb_true_iff in H as [_ H2]. exact (IH H2).
Qed.

Lemma lstrip_zero_head s : String.prefix "0" (PyStr.lstrip ["0"%char] s) = false.
Proof.
  induction s as [|c r IH]; [reflexivity|]. simpl.
  destruct (Ascii.eqb c "0") eqn:E; cbn [orb]; [exact IH|].
  apply Ascii.eqb_neq in E.
  change (String.prefix "0" (String c r))
    with (if Ascii.ascii_dec "0" c then String.prefix "" r else false).
  destruct (Ascii.ascii_dec "0" c) as [H|_]; [congruence|reflexivity].
Qed.

Lemma normalize_phone_strip p :
  normalize_phone p =
  if String.prefix "+" (strip_separators p) then strip_separators p
  else "+91" ++ PyStr.lstrip ["0"%char] (strip_separators p).
Proof. rewrite normalize_phone_cases, clean_phone_strip. reflexivity. Qed.

Lemma normalize_phone_has_no_seps p : has_no_seps (normalize_phone p) = true.
Proof.
  rewrite normalize_phone_strip.
  destruct (String.prefix "+" (strip_separators p)).
  - apply strip_separators_no_seps.
  - simpl. apply no_seps_lstrip, strip_separators_no_seps.
Qed.

Section TriggerCallNoVonage.
Context {S : Type} (cfg : Config)
  (create_call : VonageCall -> result vonage_response) (salon_ai : Agent S).

Lemma trigger_call_no_vonage_event req (st : St S) :
  vonage_ready cfg = false ->
  existsb is_vonage_call (trace (snd (trigger_call cfg create_call salon_ai req st))) =
  existsb is_vonage_call (trace st).
Proof.
  intros Hr.
  destruct (trigger_call_events_all cfg create_call salon_ai req st) as [evs [Ht Hc]].
  rewrite Ht, existsb_app.
  destruct Hc as [->|[[Hr' _]|[[Hr' _]|[p [u ->]]]]];
    [simpl; rewrite orb_false_r; reflexivity | congruence | congruence
    | simpl; rewrite orb_false_r; reflexivity].
Qed.

End TriggerCallNoVonage.

(** ** More concrete inputs *)

Definition demo_cfg_no_key : Config :=
  {| VONAGE_AVAILABLE := true; VONAGE_API_KEY := ""; VONAGE_API_SECRET := "secret";
     VONAGE_PHONE_NUMBER := "14155550100"; VONAGE_ANSWER_URL := "https://example.com/ncco";
     vonage_client_ok := true; WEBHOOK_URL := "https://salon.example.com";
     TWILIO_AVAILABLE := true |}.

Definition vonage_up : VonageCall -> result vonage_response :=
  fun _ => Ok (VDict (Some "63f61863-4a51-4f6b-86e1-46edebcf9356")).

(** ** Properties of POST /trigger-call *)

(** Vonage is called only when the SDK imported, the key and the secret
    are non-empty, the client could be built, and the Vonage number and
    answer URL are non-empty; if any of these fails, no Vonage call is
    made, whatever the request. *)
Theorem trigger_call_vonage_requires_config {S : Type} (cfg : Config)
  (create_call : VonageCall -> result vonage_response) (salon_ai : Agent S)
  (req : list (string * string)) (st : St S) :
  VONAGE_AVAILABLE cfg = false \/ VONAGE_API_KEY cfg = "" \/ VONAGE_API_SECRET cfg = "" \/
  vonage_client_ok cfg = false \/ VONAGE_PHONE_NUMBER cfg = "" \/ VONAGE_ANSWER_URL cfg = "" ->
  existsb is_vonage_call (trace (snd (trigger_call cfg create_call salon_ai req st))) =
  existsb is_vonage_call (trace st).
Proof.
  intros H. apply trigger_call_no_vonage_event.
  destruct (vonage_ready cfg) eqn:Hr; [|reflexivity].
  apply vonage_ready_true_iff in Hr. exfalso. intuition congruence.
Qed.

Lemma trigger_call_vonage_requires_config_witness :
  existsb is_vonage_call
    (trace (snd (trigger_call demo_cfg_no_key vonage_up demo_agent
                   [("phone", "9876543210")] demo_st))) =
  existsb is_vonage_call (trace demo_st).
Proof.
  apply (trigger_call_vonage_requires_config demo_cfg_no_key vonage_up demo_agent
           [("phone", "9876543210")] demo_st).
  right; left; reflexivity.
Defined.

(** When [VONAGE_API_KEY] is set neither in the environment nor in
    [config] (lines 31-35 then give the empty string), the handler never
    calls Vonage. *)
Theorem trigger_call_vonage_key_unset {S : Type} (config_imported : bool) (cfg : Config)
  (create_call : VonageCall -> result vonage_response) (salon_ai : Agent S)
  (req : list (string * string)) (st : St S) :
  VONAGE_API_KEY cfg = vonage_setting config_imported None None ->
  existsb is_vonage_call (trace (snd (trigger_call cfg create_call salon_ai req st))) =
  existsb is_vonage_call (trace st).
Proof.
  intros H. apply trigger_call_no_vonage_event.
  unfold vonage_ready, get_vonage_client. rewrite H.
  destruct config_imported, (VONAGE_AVAILABLE cfg); reflexivity.
Qed.

Lemma trigger_call_vonage_key_unset_witness :
  existsb is_vonage_call
    (trace (snd (trigger_call demo_cfg_no_key vonage_up demo_agent
                   [("phone", "9876543210")] demo_st))) =
  existsb is_vonage_call (trace demo_st).
Proof.
  apply (trigger_call_vonage_key_unset true demo_cfg_no_key vonage_up demo_agent
           [("phone", "9876543210")] demo_st).
  reflexivity.
Defined.

(** When Vonage is configured and [create_call] returns, the handler
    answers with provider [vonage], the normalised number in the message
    and the call id taken from ['uuid'] (null when the response is not a
    dict or has no uuid); Twilio is not called and the AI state is
    untouched. *)
Theorem trigger_call_vonage_success {S : Type} (cfg : Config)
  (create_call : VonageCall -> result vonage_response) (salon_ai : Agent S)
  (req : list (string * string)) (st : St S) (p : string) (r : vonage_response) :
  dict_get "phone" req = Some p -> p <> "" ->
  vonage_ready cfg = true ->
  create_call (vonage_request cfg (normalize_phone p)) = Ok r ->
  fst (trigger_call cfg create_call salon_ai req st) =
    Ok (RJson [("success", JBool true); ("provider", JStr "vonage");
               ("message", JStr ("AI call initiated to " ++ normalize_phone p));
               ("call_id", match r with VDict (Some u) => JStr u | _ => JNull end)]) /\
  snd (trigger_call cfg create_call salon_ai req st) =
    mkSt (ai st) (trace st ++ [EvVonageCreateCall (vonage_request cfg (normalize_phone p))]).
Proof.
  intros Hp Hne Hr Hc.
  rewrite (trigger_call_vonage_ok cfg create_call salon_ai req st p r Hp Hne Hr Hc).
  split; [destruct r as [[u|]|]; reflexivity | reflexivity].
Qed.

Lemma trigger_call_vonage_success_witness :
  fst (trigger_call demo_cfg vonage_up demo_agent [("phone", "98765-43210")] demo_st) =
    Ok (RJson [("success", JBool true); ("provider", JStr "vonage");
               ("message", JStr ("AI call initiated to " ++ normalize_phone "98765-43210"));
               ("call_id", match VDict (Some "63f61863-4a51-4f6b-86e1-46edebcf9356") with
                           | VDict (Some u) => JStr u | _ => JNull end)]) /\
  snd (trigger_call demo_cfg vonage_up demo_agent [("phone", "98765-43210")] demo_st) =
    mkSt (ai demo_st)
      (trace demo_st ++ [EvVonageCreateCall (vonage_request demo_cfg (normalize_phone "98765-43210"))]).
Proof.
  apply (trigger_call_vonage_success demo_cfg vonage_up demo_agent
           [("phone", "98765-43210")] demo_st "98765-43210"
           (VDict (Some "63f61863-4a51-4f6b-86e1-46edebcf9356")));
    [reflexivity | discriminate | reflexivity | reflexivity].
Defined.

(** On the Twilio path (Vonage not configured, or its call raised), the
    answer follows [salon_ai.trigger_voice_call]: [True] gives a success
    with provider [twilio]; [False] gives a normal answer with
    [success: False] and a configuration hint, not an HTTP error; an
    exception gives an HTTP 500 whose detail is [str(e)]. *)
Theorem trigger_call_twilio_result {S : Type} (cfg : Config)
  (create_call : VonageCall -> result vonage_response) (salon_ai : Agent S)
  (req : list (string * string)) (st : St S) (p : string) (r : result bool) (s' : S) :
  dict_get "phone" req = Some p -> p <> "" ->
  (vonage_ready cfg = false \/
   exists e, create_call (vonage_request cfg (normalize_phone p)) = Err e) ->
  trigger_voice_call salon_ai (ai st) (normalize_phone p)
    (WEBHOOK_URL cfg ++ "/voice/webhook") = (r, s') ->
  fst (trigger_call cfg create_call salon_ai req st) =
    match r with
    | Ok true =>
        Ok (RJson [("success", JBool true); ("provider", JStr "twilio");
                   ("message", JStr ("AI call initiated to " ++ normalize_phone p))])
    | Ok false =>
        Ok (RJson [("success", JBool false);
                   ("message", JStr "Failed to initiate call. Configure Vonage (VONAGE_API_KEY/SECRET/PHONE/ANSWER_URL) or Twilio (SID/TOKEN/PHONE/WEBHOOK_URL).")])
    | Err e => Err (HTTPException 500 (exn_str e))
    end.
Proof.
  intros Hp Hne Hv Ht.
  destruct (vonage_ready cfg) eqn:Hr.
  - destruct Hv as [Hv|[e Hc]]; [discriminate|].
    rewrite (trigger_call_vonage_err cfg create_call salon_ai req st p e Hp Hne Hr Hc).
    unfold twilio_outcome. simpl. rewrite Ht. destruct r as [[|]|]; reflexivity.
  - rewrite (trigger_call_no_vonage cfg create_call salon_ai req st p Hp Hne Hr).
    unfold twilio_outcome. rewrite Ht. destruct r as [[|]|]; reflexivity.
Qed.

Lemma trigger_call_twilio_result_witness :
  fst (trigger_call demo_cfg vonage_down demo_agent [("phone", "9876543210")] demo_st) =
    Ok (RJson [("success", JBool true); ("provider", JStr "twilio");
               ("message", JStr ("AI call initiated to " ++ normalize_phone "9876543210"))]).
Proof.
  apply (trigger_call_twilio_result demo_cfg vonage_down demo_agent
           [("phone", "9876543210")] demo_st "9876543210" (Ok true) tt);
    [reflexivity | discriminate | right; eexists; reflexivity | reflexivity].
Defined.

(** No retries: a request makes at most one Vonage call and at most one
    Twilio call, makes no other outward call, and any Vonage call comes
    before any Twilio call. *)
Theorem trigger_call_at_most_one_call_each {S : Type} (cfg : Config)
  (create_call : VonageCall -> result vonage_response) (salon_ai : Agent S)
  (req : list (string * string)) (st : St S) :
  exists evs,
    trace (snd (trigger_call cfg create_call salon_ai req st)) = (trace st ++ evs)%list /\
    length (filter is_vonage_call evs) <= 1 /\
    length (filter is_twilio_call evs) <= 1 /\
    evs = (filter is_vonage_call evs ++ filter is_twilio_call evs)%list.
Proof.
  destruct (trigger_call_events_all cfg create_call salon_ai req st) as [evs [Ht H]].
  exists evs. split; [exact Ht|].
  destruct H as [->|[[_ [r ->]]|[[_ [r [p [u ->]]]]|[p [u ->]]]]];
    simpl; repeat split; lia.
Qed.

(** A [phone] field holding the empty string is refused like a missing
    one: HTTP 500 with detail ["400: Phone number is required"], and the
    handler calls nothing and leaves the state as it was. *)
Theorem trigger_call_empty_phone {S : Type} (cfg : Config)
  (create_call : VonageCall -> result vonage_response) (salon_ai : Agent S)
  (req : list (string * string)) (st : St S) :
  dict_get "phone" req = Some "" ->
  trigger_call cfg create_call salon_ai req st =
  (Err (HTTPException 500 "400: Phone number is required"), st).
Proof.
  intros H. rewrite (trigger_call_no_phone cfg create_call salon_ai req st (or_intror H)).
  reflexivity.
Qed.

Lemma trigger_call_empty_phone_witness :
  trigger_call demo_cfg vonage_up demo_agent [("phone", "")] demo_st =
  (Err (HTTPException 500 "400: Phone number is required"), demo_st).
Proof.
  apply (trigger_call_empty_phone demo_cfg vonage_up demo_agent [("phone", "")] demo_st).
  reflexivity.
Defined.

(** ** Properties of phone normalisation *)

(** Normalising an already normalised number changes nothing. *)
Theorem normalize_phone_idempotent (p : string) :
  normalize_phone (normalize_phone p) = normalize_phone p.
Proof.
  rewrite (normalize_phone_strip (normalize_phone p)).
  rewrite (no_seps_strip_id _ (normalize_phone_has_no_seps p)), normalize_phone_plus.
  reflexivity.
Qed.

(** A normalised number contains no space, dash or parenthesis. *)
Theorem normalize_phone_no_separators (p : string) :
  has_no_seps (normalize_phone p) = true /\
  strip_separators (normalize_phone p) = normalize_phone p.
Proof.
  split; [apply normalize_phone_has_no_seps|].
  apply no_seps_strip_id, normalize_phone_has_no_seps.
Qed.

(** When [+91] is added, the leading zeros are gone: the result never
    starts with [+910]. *)
Theorem normalize_phone_no_zero_after_prefix (p : string) :
  String.prefix "+" (clean_phone p) = false ->
  String.prefix "+910" (normalize_phone p) = false.
Proof.
  intros H. rewrite normalize_phone_cases, H.
  change (String.prefix "+910" ("+91" ++ PyStr.lstrip ["0"%char] (clean_phone p)))
    with (String.prefix "0" (PyStr.lstrip ["0"%char] (clean_phone p))).
  apply lstrip_zero_head.
Qed.

Lemma normalize_phone_no_zero_after_prefix_witness :
  String.prefix "+910" (normalize_phone "0098 7654-3210") = false.
Proof.
  apply normalize_phone_no_zero_after_prefix. reflexivity.
Defined.

(** Numbers that differ only in spaces, dashes and parentheses normalise
    to the same number. *)
Theorem normalize_phone_ignores_formatting (p1 p2 : string) :
  strip_separators p1 = strip_separators p2 ->
  normalize_phone p1 = normalize_phone p2.
Proof.
  intros H. rewrite (normalize_phone_strip p1), (normalize_phone_strip p2), H.
  reflexivity.
Qed.

Lemma normalize_phone_ignores_formatting_witness :
  normalize_phone "(987) 654-3210" = normalize_phone "987 654 3210".
Proof.
  apply normalize_phone_ignores_formatting. reflexivity.
Defined.

(** ** Properties of the voice endpoints *)

(** A [salon_ai] whose methods all raise, for the witnesses. *)
Definition failing_agent : Agent unit :=
  {| trigger_voice_call := fun s _ _ => (Err (PyException "RuntimeError" "model unavailable"), s);
     process_voice_call := fun s _ => (Err (PyException "RuntimeError" "model unavailable"), s);
     process_user_input := fun s _ => (Err (PyException "RuntimeError" "model unavailable"), s) |}.

(** Both voice endpoints always answer with an [application/xml]
    document, whatever the request and whatever [salon_ai] does. *)
Theorem voice_endpoints_always_xml {S : Type} :
  (forall (salon_ai : Agent S) (request_form : result form) (st : St S),
     exists doc, fst (voice_webhook salon_ai request_form st) = Ok (RResponse doc "application/xml")) /\
  (forall (salon_ai : Agent S) (query_params : form) (st : St S),
     exists doc, fst (voice_process salon_ai query_params st) = Ok (RResponse doc "application/xml")).
Proof.
  split; intros salon_ai x st;
    unfold voice_webhook, voice_webhook_body, voice_process, voice_process_body,
      call_generate_twiml_response, call_process_voice_call,
      try_except, bind, lift_result, emit, run_ai, ret.
  - destruct x as [f|e]; [|eexists; reflexivity].
    destruct (PyStr.truthy (form_get "SpeechResult" "" f)); simpl;
      try match goal with
          | |- context [process_voice_call ?a ?s ?sp] =>
              destruct (process_voice_call a s sp) as [[d|e'] s']
          end;
      eexists; reflexivity.
  - destruct (PyStr.truthy (form_get "SpeechResult" "" x)); simpl;
      try match goal with
          | |- context [process_voice_call ?a ?s ?sp] =>
              destruct (process_voice_call a s sp) as [[d|e'] s']
          end;
      eexists; reflexivity.
Qed.

(** When the form cannot be read, the webhook answers with the apology
    document and calls nothing else. *)
Theorem voice_webhook_form_error {S : Type} (salon_ai : Agent S) (e : exn) (st : St S) :
  voice_webhook salon_ai (Err e) st =
  (Ok (RResponse (generate_twiml_response webhook_apology) "application/xml"),
   mkSt (ai st) (trace st ++ [EvGenerateTwiml webhook_apology])).
Proof. reflexivity. Qed.

(** When processing the speech raises, the webhook answers with the
    apology document, after the one processing attempt. *)
Theorem voice_webhook_process_error {S : Type} (salon_ai : Agent S) (f : form) (st : St S)
  (sp : string) (e : exn) (s' : S) :
  form_get "SpeechResult" "" f = sp -> sp <> "" ->
  process_voice_call salon_ai (ai st) sp = (Err e, s') ->
  voice_webhook salon_ai (Ok f) st =
  (Ok (RResponse (generate_twiml_response webhook_apology) "application/xml"),
   mkSt s' (trace st ++ [EvProcessVoiceCall sp; EvGenerateTwiml webhook_apology])).
Proof.
  intros H Hne Hp. apply truthy_true in Hne.
  unfold voice_webhook, voice_webhook_body, try_except, bind, lift_result.
  rewrite H, Hne. simpl.
  unfold call_process_voice_call, call_generate_twiml_response, emit, run_ai, bind, ret.
  simpl. rewrite Hp. simpl. rewrite <- app_assoc. reflexivity.
Qed.

Lemma voice_webhook_process_error_witness :
  voice_webhook failing_agent (Ok [("CallSid", "CA05"); ("SpeechResult", "hair spa")]) demo_st =
  (Ok (RResponse (generate_twiml_response webhook_apology) "application/xml"),
   mkSt tt (trace demo_st ++ [EvProcessVoiceCall "hair spa"; EvGenerateTwiml webhook_apology])).
Proof.
  apply (voice_webhook_process_error failing_agent
           [("CallSid", "CA05"); ("SpeechResult", "hair spa")] demo_st "hair spa"
           (PyException "RuntimeError" "model unavailable") tt);
    [reflexivity | discriminate | reflexivity].
Defined.

(** [/voice/process] with no [SpeechResult] query parameter (or an empty
    one) answers with its own greeting and does not process speech. *)
Theorem voice_process_greeting {S : Type} (salon_ai : Agent S) (q : form) (st : St S) :
  form_get "SpeechResult" "" q = "" ->
  voice_process salon_ai q st =
  (Ok (RResponse (generate_twiml_response process_greeting) "application/xml"),
   mkSt (ai st) (trace st ++ [EvGenerateTwiml process_greeting])).
Proof.
  intros H. unfold voice_process, voice_process_body, try_except. rewrite H. reflexivity.
Qed.

Lemma voice_process_greeting_witness :
  voice_process failing_agent [("From", "+919876543210")] demo_st =
  (Ok (RResponse (generate_twiml_response process_greeting) "application/xml"),
   mkSt (ai demo_st) (trace demo_st ++ [EvGenerateTwiml process_greeting])).
Proof.
  apply (voice_process_greeting failing_agent [("From", "+919876543210")] demo_st).
  reflexivity.
Defined.

(** [/voice/process] with speech serves the document [process_voice_call]
    returns, or its apology document when that call raises. *)
Theorem voice_process_speech {S : Type} (salon_ai : Agent S) (q : form) (st : St S)
  (sp : string) :
  form_get "SpeechResult" "" q = sp -> sp <> "" ->
  fst (voice_process salon_ai q st) =
  match fst (process_voice_call salon_ai (ai st) sp) with
  | Ok d => Ok (RResponse d "application/xml")
  | Err _ => Ok (RResponse (generate_twiml_response process_apology) "application/xml")
  end.
Proof.
  intros H Hne. apply truthy_true in Hne.
  unfold voice_process, voice_process_body, try_except. rewrite H, Hne. simpl.
  unfold call_process_voice_call, call_generate_twiml_response, emit, run_ai, bind, ret.
  simpl. destruct (process_voice_call salon_ai (ai st) sp) as [[d|e] s']; reflexivity.
Qed.

Lemma voice_process_speech_witness :
  fst (voice_process failing_agent [("SpeechResult", "keratin price")] demo_st) =
  match fst (process_voice_call failing_agent (ai demo_st) "keratin price") with
  | Ok d => Ok (RResponse d "application/xml")
  | Err _ => Ok (RResponse (generate_twiml_response process_apology) "application/xml")
  end.
Proof.
  apply (voice_process_speech failing_agent [("SpeechResult", "keratin price")] demo_st
           "keratin price"); [reflexivity | discriminate].
Defined.

(** ** Properties of POST /bookings and GET /test-ai *)

(** [create_booking] stores nothing: it sends ["Book appointment: " + str(data)]
    to [salon_ai.process_user_input] once and answers [success: True] with
    the reply, or HTTP 500 with [str(e)] when that call raises. *)
Theorem create_booking_result {S : Type} (salon_ai : Agent S) (data : string) (st : St S) :
  fst (create_booking salon_ai data st) =
    match fst (process_user_input salon_ai (ai st) ("Book appointment: " ++ data)) with
    | Ok r => Ok (RJson [("success", JBool true); ("message", JStr r)])
    | Err e => Err (HTTPException 500 (exn_str e))
    end /\
  trace (snd (create_booking salon_ai data st)) =
    (trace st ++ [EvProcessUserInput ("Book appointment: " ++ data)])%list.
Proof.
  unfold create_booking, create_booking_body, try_except, call_process_user_input,
    emit, run_ai, bind, ret, raise. simpl.
  destruct (process_user_input salon_ai (ai st) _) as [[r|e] s']; split; reflexivity.
Qed.

(** [test_ai] always asks the fixed question once; it answers with the
    question, the reply and the timestamp, or HTTP 500 with [str(e)] when
    the AI raises. *)
Theorem test_ai_result {S : Type} (salon_ai : Agent S) (now : string) (st : St S) :
  fst (test_ai salon_ai now st) =
    match fst (process_user_input salon_ai (ai st) "What services do you offer?") with
    | Ok r => Ok (RJson [("query", JStr "What services do you offer?");
                         ("response", JStr r); ("timestamp", JStr now)])
    | Err e => Err (HTTPException 500 (exn_str e))
    end /\
  trace (snd (test_ai salon_ai now st)) =
    (trace st ++ [EvProcessUserInput "What services do you offer?"])%list.
Proof.
  unfold test_ai, test_ai_body, try_except, call_process_user_input,
    emit, run_ai, bind, ret, raise. simpl.
  destruct (process_user_input salon_ai (ai st) _) as [[r|e] s']; split; reflexivity.
Qed.
